(** * src/port/thread.c: reentrant wrappers around getpwuid and gethostbyname

    A shallow embedding of [pqGetpwuid] and [pqGethostbyname] and the
    properties of their status codes and output slots.

    The two functions are C code over pointers and ambient error
    indicators, so the model is a small state-and-fault monad over a
    [world]:
    - the platform part: [errno], [h_errno] and the private state of the
      C library (account database, resolver, static result storage);
    - the caller-owned memory: a finite map from addresses to cells, a cell
      holding one scalar (an [int] or a pointer), a load or store outside
      the allocated cells being a fault;
    - a log of the library primitives invoked, in order, with their
      arguments.

    The library primitives are not part of thread.c; they are the fields of
    the interface [Libc].  The legacy primitives [getpwuid] and
    [gethostbyname] receive no reference to caller storage and act on the
    platform part alone; the reentrant ones receive the caller's pointers and
    act on the platform part and on the caller's memory. *)

From Stdlib Require Import ZArith Lia List.
From stdpp Require Import base option gmap strings.
Import ListNotations.

Open Scope Z_scope.

Module Thread.

(** ** Build configuration

    The preprocessor symbols that thread.c tests.  ([WIN32] removes
    [pqGetpwuid] and [HAVE_GETADDRINFO] removes [pqGethostbyname] from the
    build altogether; the model describes the functions where they exist.) *)

Record config := Config {
  FRONTEND : bool;
  ENABLE_THREAD_SAFETY : bool;
  HAVE_GETPWUID_R : bool;
  HAVE_GETHOSTBYNAME_R : bool
}.

(** [#if defined(FRONTEND) && defined(ENABLE_THREAD_SAFETY) && defined(HAVE_GETPWUID_R)] *)
Definition use_getpwuid_r (c : config) : bool :=
  FRONTEND c && ENABLE_THREAD_SAFETY c && HAVE_GETPWUID_R c.

(** [#if defined(FRONTEND) && defined(ENABLE_THREAD_SAFETY) && defined(HAVE_GETHOSTBYNAME_R)] *)
Definition use_gethostbyname_r (c : config) : bool :=
  FRONTEND c && ENABLE_THREAD_SAFETY c && HAVE_GETHOSTBYNAME_R c.

(** ** Data *)

(** Pointers are addresses, the null pointer is address 0. *)
Definition NULL : Z := 0.

(** The platform part of the state. *)
Record platform (T : Type) := Platform {
  errno : Z;
  h_errno : Z;
  priv : T
}.
Arguments Platform {T} _ _ _.
Arguments errno {T} _.
Arguments h_errno {T} _.
Arguments priv {T} _.

(** One entry of the log per invocation of a library primitive. *)
Inductive call :=
| Call_getpwuid (uid : Z)
| Call_getpwuid_r (uid resultbuf buffer buflen result : Z)
| Call_gethostbyname (name : string)
| Call_gethostbyname_r (name : string) (resultbuf buffer buflen herrno : Z).

Record world (T : Type) := World {
  plat : platform T;
  mem : gmap Z Z;
  calls : list call
}.
Arguments World {T} _ _ _.
Arguments plat {T} _.
Arguments mem {T} _.
Arguments calls {T} _.

(** The C library primitives the wrappers call.
    [getpwuid_r] returns its status code, [gethostbyname_r] is the
    five-argument form that returns the [struct hostent *]. *)
Class Libc (T : Type) := {
  getpwuid : Z -> platform T -> Z * platform T;
  getpwuid_r : Z -> Z -> Z -> Z -> Z ->
               platform T -> gmap Z Z -> Z * platform T * gmap Z Z;
  gethostbyname : string -> platform T -> Z * platform T;
  gethostbyname_r : string -> Z -> Z -> Z -> Z ->
                    platform T -> gmap Z Z -> Z * platform T * gmap Z Z
}.

(** ** The monad: state over [world], [None] for a memory fault *)

Definition M (T A : Type) : Type := world T -> option (A * world T).

Definition ret {T A} (a : A) : M T A := fun w => Some (a, w).

Definition bind {T A B} (c : M T A) (k : A -> M T B) : M T B :=
  fun w => match c w with
           | Some (a, w') => k a w'
           | None => None
           end.

Declare Scope c_scope.
Delimit Scope c_scope with C.
Notation "x <- y ; z" := (bind y (fun x => z))
  (at level 20, y at level 100, z at level 200, only parsing) : c_scope.
Notation "x ;; z" := (bind x (fun _ => z))
  (at level 100, z at level 200, only parsing, right associativity) : c_scope.

(** The three outcomes of an account lookup. *)
Inductive outcome := Found | NotFound | Failed (e : Z).

Section Wrappers.

Context {T : Type} {L : Libc T}.

(** [errno = v] *)
Definition set_errno (v : Z) : M T unit := fun w =>
  Some (tt, World (Platform v (h_errno (plat w)) (priv (plat w))) (mem w) (calls w)).

(** reading [errno] and [h_errno] *)
Definition get_errno : M T Z := fun w => Some (errno (plat w), w).
Definition get_h_errno : M T Z := fun w => Some (h_errno (plat w), w).

(** [*a] *)
Definition load (a : Z) : M T Z := fun w =>
  match mem w !! a with
  | Some v => Some (v, w)
  | None => None
  end.

(** [*a = v] *)
Definition store (a v : Z) : M T unit := fun w =>
  match mem w !! a with
  | Some _ => Some (tt, World (plat w) (<[a := v]> (mem w)) (calls w))
  | None => None
  end.

(** Invoking the primitives: the call is logged, its effect applied. *)
Definition call_getpwuid (uid : Z) : M T Z := fun w =>
  let '(p, pl) := getpwuid uid (plat w) in
  Some (p, World pl (mem w) (calls w ++ [Call_getpwuid uid])).

Definition call_getpwuid_r (uid resultbuf buffer buflen result : Z) : M T Z :=
  fun w =>
  let '(code, pl, m) :=
    getpwuid_r uid resultbuf buffer buflen result (plat w) (mem w) in
  Some (code, World pl m
                (calls w ++ [Call_getpwuid_r uid resultbuf buffer buflen result])).

Definition call_gethostbyname (name : string) : M T Z := fun w =>
  let '(p, pl) := gethostbyname name (plat w) in
  Some (p, World pl (mem w) (calls w ++ [Call_gethostbyname name])).

Definition call_gethostbyname_r (name : string)
    (resultbuf buffer buflen herrno : Z) : M T Z := fun w =>
  let '(p, pl, m) :=
    gethostbyname_r name resultbuf buffer buflen herrno (plat w) (mem w) in
  Some (p, World pl m
             (calls w ++ [Call_gethostbyname_r name resultbuf buffer buflen herrno])).

Open Scope c_scope.

(** ** pqGetpwuid *)

Definition pqGetpwuid (cfg : config)
    (uid resultbuf buffer buflen result : Z) : M T Z :=
  if use_getpwuid_r cfg then
    call_getpwuid_r uid resultbuf buffer buflen result
  else
    set_errno 0;;
    p <- call_getpwuid uid;
    store result p;;
    r <- load result;
    if r =? NULL then get_errno else ret 0.

(** ** pqGethostbyname *)

Definition pqGethostbyname (cfg : config) (name : string)
    (resultbuf buffer buflen result herrno : Z) : M T Z :=
  if use_gethostbyname_r cfg then
    p <- call_gethostbyname_r name resultbuf buffer buflen herrno;
    store result p;;
    r <- load result;
    ret (if r =? NULL then -1 else 0)
  else
    p <- call_gethostbyname name;
    store result p;;
    r <- load result;
    (if negb (r =? NULL)
     then (h <- get_h_errno; store herrno h)
     else ret tt);;
    r' <- load result;
    if negb (r' =? NULL) then ret 0 else ret (-1).

(** ** Descriptions of the primitives used in the statements *)

(** The platform with the error indicator cleared, as the legacy
    [pqGetpwuid] passes it to [getpwuid]. *)
Definition clear_errno (pl : platform T) : platform T :=
  Platform 0 (h_errno pl) (priv pl).

(** What POSIX says of [getpwuid] called on platform [pl]: a non-null
    pointer when the entry is found; a null pointer and [errno] as it was
    when there is no entry; a null pointer and [errno] set on error. *)
Definition getpwuid_answers (uid : Z) (pl : platform T) (o : outcome) : Prop :=
  match o with
  | Found => (getpwuid uid pl).1 <> NULL
  | NotFound =>
      (getpwuid uid pl).1 = NULL /\ errno (getpwuid uid pl).2 = errno pl
  | Failed e =>
      (getpwuid uid pl).1 = NULL /\ errno (getpwuid uid pl).2 = e /\ e <> 0
  end.

(** What POSIX says of [getpwuid_r]: zero and a non-null [*result] when the
    entry is found; zero and a null [*result] when there is none; an error
    number and a null [*result] on error. *)
Definition getpwuid_r_answers (uid resultbuf buffer buflen result : Z)
    (pl : platform T) (m : gmap Z Z) (o : outcome) : Prop :=
  let r := getpwuid_r uid resultbuf buffer buflen result pl m in
  match o with
  | Found => r.1.1 = 0 /\ exists p, r.2 !! result = Some p /\ p <> NULL
  | NotFound => r.1.1 = 0 /\ r.2 !! result = Some NULL
  | Failed e => r.1.1 = e /\ e <> 0 /\ r.2 !! result = Some NULL
  end.

(** The primitive that the build selects answers with outcome [o]. *)
Definition lookup_answers (cfg : config)
    (uid resultbuf buffer buflen result : Z) (w : world T) (o : outcome) : Prop :=
  if use_getpwuid_r cfg
  then getpwuid_r_answers uid resultbuf buffer buflen result (plat w) (mem w) o
  else getpwuid_answers uid (clear_errno (plat w)) o.

(** The contract in the comment above [pqGetpwuid]:
    success: returns zero, [*result] is non-NULL;
    uid not found: returns zero, [*result] is NULL;
    error during lookup: returns an errno code, [*result] is NULL. *)
Definition three_way (o : outcome) (status : Z) (slot : option Z) : Prop :=
  match o with
  | Found => status = 0 /\ exists p, slot = Some p /\ p <> NULL
  | NotFound => status = 0 /\ slot = Some NULL
  | Failed e => status = e /\ status <> 0 /\ slot = Some NULL
  end.

(** The pointer that the host lookup of the build returns: the return value
    of [gethostbyname_r] or of [gethostbyname]. *)
Definition host_lookup_ptr (cfg : config) (name : string)
    (resultbuf buffer buflen herrno : Z) (w : world T) : Z :=
  if use_gethostbyname_r cfg
  then (gethostbyname_r name resultbuf buffer buflen herrno (plat w) (mem w)).1.1
  else (gethostbyname name (plat w)).1.

(** The world with [u] left over in the cell at [a]. *)
Definition with_leftover (w : world T) (a u : Z) : world T :=
  World (plat w) (<[a := u]> (mem w)) (calls w).

(** [getpwuid_r] stores into [*result] (POSIX: a pointer to the record, or a
    null pointer, is returned at the location pointed to by [result]): the
    slot stays allocated, and what it holds after the call does not depend
    on what it held before. *)
Definition getpwuid_r_sets_result (uid resultbuf buffer buflen result : Z)
    (pl : platform T) (m : gmap Z Z) : Prop :=
  forall u,
    is_Some ((getpwuid_r uid resultbuf buffer buflen result pl
                (<[result := u]> m)).2 !! result)
    /\ (getpwuid_r uid resultbuf buffer buflen result pl
          (<[result := u]> m)).2 !! result
       = (getpwuid_r uid resultbuf buffer buflen result pl m).2 !! result.

(** [gethostbyname_r] is not given [result]: the pointer it returns does not
    depend on what that slot holds, and it leaves the slot allocated. *)
Definition gethostbyname_r_blind (name : string)
    (resultbuf buffer buflen herrno result : Z)
    (pl : platform T) (m : gmap Z Z) : Prop :=
  forall u,
    is_Some ((gethostbyname_r name resultbuf buffer buflen herrno pl
                (<[result := u]> m)).2 !! result)
    /\ (gethostbyname_r name resultbuf buffer buflen herrno pl
          (<[result := u]> m)).1.1
       = (gethostbyname_r name resultbuf buffer buflen herrno pl m).1.1.

(** The underlying account lookup is unchanged between two calls: the
    primitive of the build answers in [w2] as it does in [w1].  For
    [getpwuid], called with [errno] cleared: the same pointer and the same
    [errno] afterwards.  For [getpwuid_r]: the same status and the same
    [*result]. *)
Definition pw_lookup_alike (cfg : config)
    (uid resultbuf buffer buflen result : Z) (w1 w2 : world T) : Prop :=
  if use_getpwuid_r cfg then
    (getpwuid_r uid resultbuf buffer buflen result (plat w1) (mem w1)).1.1
    = (getpwuid_r uid resultbuf buffer buflen result (plat w2) (mem w2)).1.1
    /\ (getpwuid_r uid resultbuf buffer buflen result
          (plat w1) (mem w1)).2 !! result
       = (getpwuid_r uid resultbuf buffer buflen result
            (plat w2) (mem w2)).2 !! result
  else
    (getpwuid uid (clear_errno (plat w1))).1
    = (getpwuid uid (clear_errno (plat w2))).1
    /\ errno (getpwuid uid (clear_errno (plat w1))).2
       = errno (getpwuid uid (clear_errno (plat w2))).2.

(** The same for the host lookup.  For [gethostbyname]: the same pointer and
    the same [h_errno] afterwards.  For [gethostbyname_r]: the same pointer
    and the same [*herrno]. *)
Definition host_lookup_alike (cfg : config) (name : string)
    (resultbuf buffer buflen herrno : Z) (w1 w2 : world T) : Prop :=
  if use_gethostbyname_r cfg then
    (gethostbyname_r name resultbuf buffer buflen herrno
       (plat w1) (mem w1)).1.1
    = (gethostbyname_r name resultbuf buffer buflen herrno
         (plat w2) (mem w2)).1.1
    /\ (gethostbyname_r name resultbuf buffer buflen herrno
          (plat w1) (mem w1)).2 !! herrno
       = (gethostbyname_r name resultbuf buffer buflen herrno
            (plat w2) (mem w2)).2 !! herrno
  else
    (gethostbyname name (plat w1)).1 = (gethostbyname name (plat w2)).1
    /\ h_errno (gethostbyname name (plat w1)).2
       = h_errno (gethostbyname name (plat w2)).2.

End Wrappers.

(** ** A small concrete platform, on which the statements are run

    One account (uid 0, "root"), one uid whose lookup fails with [EIO]
    (uid 13), one host ("localhost").  The legacy primitives return the
    addresses of their static records; the reentrant ones fill the caller's
    record and need [pw_need] cells of scratch buffer. *)
Module Toy.

Definition EIO : Z := 5.
Definition ERANGE : Z := 34.
Definition HOST_NOT_FOUND : Z := 1.

Definition pw_static : Z := 4096.
Definition host_static : Z := 8192.
Definition pw_need : Z := 4.

Definition libc : Libc unit := {|
  getpwuid uid pl :=
    if uid =? 0 then (pw_static, pl)
    else if uid =? 13 then (NULL, Platform EIO (h_errno pl) (priv pl))
    else (NULL, pl);
  getpwuid_r uid resultbuf buffer buflen result pl m :=
    if buflen <? pw_need then (ERANGE, pl, <[result := NULL]> m)
    else if uid =? 0
         then (0, pl, <[result := resultbuf]> (<[resultbuf := buffer]> m))
    else if uid =? 13 then (EIO, pl, <[result := NULL]> m)
    else (0, pl, <[result := NULL]> m);
  gethostbyname name pl :=
    if String.eqb name "localhost" then (host_static, pl)
    else (NULL, Platform (errno pl) HOST_NOT_FOUND (priv pl));
  gethostbyname_r name resultbuf buffer buflen herrno pl m :=
    if String.eqb name "localhost"
    then (resultbuf, pl, <[resultbuf := buffer]> m)
    else (NULL, pl, <[herrno := HOST_NOT_FOUND]> m)
|}.

(** The caller's objects: a record at 100, a scratch buffer of four cells
    at 200, the [*result] slot at 300 and the [*herrno] slot at 400, all
    holding leftovers. *)
Definition rb0 : Z := 100.
Definition buf0 : Z := 200.
Definition res0 : Z := 300.
Definition herrno0 : Z := 400.

Definition mem0 : gmap Z Z :=
  list_to_map [(100, 11); (101, 12);
               (200, 21); (201, 22); (202, 23); (203, 24);
               (300, 999); (400, 77)].

Definition w0 : world unit := World (Platform 7 3 tt) mem0 [].

Definition legacy : config := Config true false true true.
Definition reentrant : config := Config true true true true.

(** A build without [FRONTEND], and a second world: another ambient
    [errno], other leftovers in the caller's memory, an earlier call in the
    log. *)
Definition backend : config := Config false true true true.

Definition w0' : world unit :=
  World (Platform 99 3 tt) (<[res0 := 5]> (<[buf0 := 0]> mem0))
        [Call_gethostbyname "nohost"].

(** The world in which the legacy lookup of uid 13 leaves [w0], and [w0]
    with another leftover in the [*herrno] slot. *)
Definition w0_again : world unit :=
  World (Platform EIO 3 tt) (<[res0 := NULL]> mem0) [Call_getpwuid 13].

Definition w0_fresh : world unit :=
  World (Platform 7 3 tt) (<[herrno0 := 12]> mem0) [].

End Toy.

(** A cell of a concrete memory is allocated. *)
Ltac allocated := vm_compute; eexists; reflexivity.

Section Properties.

Context {T : Type} {L : Libc T}.

(** ** Closed forms of the four code paths *)

Lemma pqGetpwuid_reentrant_run cfg uid rb buf len res w :
  use_getpwuid_r cfg = true ->
  pqGetpwuid cfg uid rb buf len res w =
    Some ((getpwuid_r uid rb buf len res (plat w) (mem w)).1.1,
          World (getpwuid_r uid rb buf len res (plat w) (mem w)).1.2
                (getpwuid_r uid rb buf len res (plat w) (mem w)).2
                (calls w ++ [Call_getpwuid_r uid rb buf len res])).
Proof.
  intros Hc. unfold pqGetpwuid, call_getpwuid_r. rewrite Hc.
  destruct (getpwuid_r uid rb buf len res (plat w) (mem w)) as [[code pl] m].
  reflexivity.
Qed.

Lemma pqGetpwuid_legacy_run cfg uid rb buf len res w :
  use_getpwuid_r cfg = false ->
  is_Some (mem w !! res) ->
  pqGetpwuid cfg uid rb buf len res w =
    Some (if (getpwuid uid (clear_errno (plat w))).1 =? NULL
          then errno (getpwuid uid (clear_errno (plat w))).2 else 0,
          World (getpwuid uid (clear_errno (plat w))).2
                (<[res := (getpwuid uid (clear_errno (plat w))).1]> (mem w))
                (calls w ++ [Call_getpwuid uid])).
Proof.
  intros Hc [v Hv]. unfold pqGetpwuid. rewrite Hc.
  unfold bind, set_errno, call_getpwuid, store, load, clear_errno. simpl.
  destruct (getpwuid uid _) as [p pl]. simpl.
  rewrite Hv. simpl. rewrite lookup_insert_eq.
  destruct (p =? NULL); reflexivity.
Qed.

Lemma pqGetpwuid_legacy_fault cfg uid rb buf len res w :
  use_getpwuid_r cfg = false ->
  mem w !! res = None ->
  pqGetpwuid cfg uid rb buf len res w = None.
Proof.
  intros Hc Hv. unfold pqGetpwuid. rewrite Hc.
  unfold bind, set_errno, call_getpwuid, store. simpl.
  destruct (getpwuid uid _) as [p pl]. simpl. rewrite Hv. reflexivity.
Qed.

Lemma pqGethostbyname_reentrant_run cfg name rb buf len res herrno w :
  use_gethostbyname_r cfg = true ->
  is_Some ((gethostbyname_r name rb buf len herrno (plat w) (mem w)).2 !! res) ->
  pqGethostbyname cfg name rb buf len res herrno w =
    Some (if (gethostbyname_r name rb buf len herrno (plat w) (mem w)).1.1 =? NULL
          then -1 else 0,
          World (gethostbyname_r name rb buf len herrno (plat w) (mem w)).1.2
                (<[res := (gethostbyname_r name rb buf len herrno
                             (plat w) (mem w)).1.1]>
                   (gethostbyname_r name rb buf len herrno (plat w) (mem w)).2)
                (calls w ++ [Call_gethostbyname_r name rb buf len herrno])).
Proof.
  intros Hc. unfold pqGethostbyname. rewrite Hc.
  unfold bind, call_gethostbyname_r, store, load, ret.
  destruct (gethostbyname_r name rb buf len herrno (plat w) (mem w))
    as [[p pl] m]. simpl.
  intros [v Hv]. rewrite Hv. simpl. rewrite lookup_insert_eq. reflexivity.
Qed.

Lemma pqGethostbyname_legacy_null cfg name rb buf len res herrno w :
  use_gethostbyname_r cfg = false ->
  is_Some (mem w !! res) ->
  (gethostbyname name (plat w)).1 = NULL ->
  pqGethostbyname cfg name rb buf len res herrno w =
    Some (-1, World (gethostbyname name (plat w)).2
                    (<[res := NULL]> (mem w))
                    (calls w ++ [Call_gethostbyname name])).
Proof.
  intros Hc [v Hv]. unfold pqGethostbyname. rewrite Hc.
  unfold bind, call_gethostbyname, store, load, ret, get_h_errno.
  destruct (gethostbyname name (plat w)) as [p pl]. simpl.
  intros ->. rewrite Hv. simpl. rewrite lookup_insert_eq. simpl.
  rewrite lookup_insert_eq. reflexivity.
Qed.

Lemma pqGethostbyname_legacy_nonnull cfg name rb buf len res herrno w :
  use_gethostbyname_r cfg = false ->
  is_Some (mem w !! res) ->
  is_Some (mem w !! herrno) ->
  (gethostbyname name (plat w)).1 <> NULL ->
  pqGethostbyname cfg name rb buf len res herrno w =
    Some (if (if decide (herrno = res)
              then h_errno (gethostbyname name (plat w)).2
              else (gethostbyname name (plat w)).1) =? NULL
          then -1 else 0,
          World (gethostbyname name (plat w)).2
                (<[herrno := h_errno (gethostbyname name (plat w)).2]>
                   (<[res := (gethostbyname name (plat w)).1]> (mem w)))
                (calls w ++ [Call_gethostbyname name])).
Proof.
  intros Hc [v Hv] [u Hu]. unfold pqGethostbyname. rewrite Hc.
  unfold bind, call_gethostbyname, store, load, ret, get_h_errno.
  destruct (gethostbyname name (plat w)) as [p pl]. simpl.
  intros Hp. rewrite Hv. simpl. rewrite lookup_insert_eq.
  assert (Hnz : (p =? NULL) = false) by (apply Z.eqb_neq; exact Hp).
  rewrite Hnz. simpl.
  assert (Hh : is_Some (<[res := p]> (mem w) !! herrno)).
  { rewrite lookup_insert. case_decide; eauto. }
  destruct Hh as [x Hx]. rewrite Hx. simpl.
  rewrite lookup_insert. case_decide as Hd.
  - destruct (h_errno pl =? NULL); reflexivity.
  - rewrite lookup_insert_eq, Hnz. reflexivity.
Qed.

(** ** pqGetpwuid: status code and [*result] *)

(** Whatever [getpwuid] does when called with [errno] cleared is one of the
    three outcomes, so in the legacy strategy the premise of the next
    theorem can always be met. *)
Lemma getpwuid_always_answers uid (pl : platform T) :
  errno pl = 0 -> exists o, getpwuid_answers uid pl o.
Proof.
  intros He.
  destruct (decide ((getpwuid uid pl).1 = NULL)) as [Hp|Hp].
  - destruct (decide (errno (getpwuid uid pl).2 = 0)) as [E|E].
    + exists NotFound. simpl. split; [exact Hp | congruence].
    + exists (Failed (errno (getpwuid uid pl).2)). simpl. auto.
  - exists Found. exact Hp.
Qed.

(** C1. [pqGetpwuid] obeys the three-way contract of its header comment in
    both strategies: whenever the primitive that the build selects answers
    as POSIX prescribes for outcome [o], the call returns, with zero and a
    non-null [*result] when the uid is found, zero and a null [*result]
    when there is no such uid, and the non-zero error number and a null
    [*result] when the lookup fails.  So a non-zero status never comes with
    a non-null [*result], and "not found" never has a non-zero status. *)
Theorem pqGetpwuid_three_way cfg uid rb buf len res (w : world T) o :
  is_Some (mem w !! res) ->
  lookup_answers cfg uid rb buf len res w o ->
  exists status w',
    pqGetpwuid cfg uid rb buf len res w = Some (status, w')
    /\ three_way o status (mem w' !! res)
    /\ ~ (status <> 0 /\ exists p, mem w' !! res = Some p /\ p <> NULL)
    /\ (o = NotFound -> status = 0).
Proof.
  intros Hres Ho. unfold lookup_answers in Ho.
  destruct (use_getpwuid_r cfg) eqn:Hc.
  - rewrite (pqGetpwuid_reentrant_run _ _ _ _ _ _ _ Hc).
    eexists _, _. split; [reflexivity|]. simpl.
    unfold getpwuid_r_answers in Ho.
    destruct o as [| |e]; simpl in *.
    + destruct Ho as (H0 & q & Hq & Hnz).
      refine (conj (conj H0 _) (conj _ _)); [eauto| |discriminate].
      intros [Hs _]. congruence.
    + destruct Ho as (H0 & Hq).
      refine (conj (conj H0 Hq) (conj _ (fun _ => H0))).
      intros [Hs _]. congruence.
    + destruct Ho as (H0 & Hnz & Hq).
      refine (conj (conj H0 (conj _ Hq)) (conj _ _));
        [congruence| |discriminate].
      intros (_ & q & Hq' & Hqn). rewrite Hq in Hq'. congruence.
  - rewrite (pqGetpwuid_legacy_run _ _ _ _ _ _ _ Hc Hres).
    eexists _, _. split; [reflexivity|]. simpl.
    rewrite lookup_insert_eq. unfold getpwuid_answers in Ho.
    destruct (getpwuid uid (clear_errno (plat w))) as [p pl]. simpl in *.
    destruct o as [| |e]; simpl in *.
    + assert (Hnz : (p =? NULL) = false) by (apply Z.eqb_neq; exact Ho).
      rewrite Hnz.
      refine (conj (conj eq_refl _) (conj _ _)); [eauto| |discriminate].
      intros [Hs _]. congruence.
    + destruct Ho as [-> He]. simpl. rewrite He.
      refine (conj (conj eq_refl eq_refl) (conj _ (fun _ => eq_refl))).
      intros [Hs _]. congruence.
    + destruct Ho as (-> & He & Hnz). simpl. rewrite He.
      refine (conj (conj eq_refl (conj Hnz eq_refl)) (conj _ _));
        [|discriminate].
      intros (_ & q & Hq & Hqn). congruence.
Qed.

(** C2. In the legacy strategy [pqGetpwuid] calls [getpwuid] once, on the
    platform with [errno] cleared, and reads [errno] straight after: a null
    lookup result makes the value [errno] then has the return code, which is
    zero when the lookup left the indicator as it was; a non-null lookup
    result makes the return code zero whatever the indicator holds. *)
Theorem pqGetpwuid_legacy_errno cfg uid rb buf len res (w : world T) :
  use_getpwuid_r cfg = false ->
  is_Some (mem w !! res) ->
  exists status w',
    pqGetpwuid cfg uid rb buf len res w = Some (status, w')
    /\ errno (clear_errno (plat w)) = 0
    /\ plat w' = (getpwuid uid (clear_errno (plat w))).2
    /\ calls w' = calls w ++ [Call_getpwuid uid]
    /\ ((getpwuid uid (clear_errno (plat w))).1 = NULL ->
        status = errno (plat w')
        /\ (errno (plat w') = errno (clear_errno (plat w)) -> status = 0))
    /\ ((getpwuid uid (clear_errno (plat w))).1 <> NULL -> status = 0).
Proof.
  intros Hc Hres. rewrite (pqGetpwuid_legacy_run _ _ _ _ _ _ _ Hc Hres).
  eexists _, _. split; [reflexivity|]. simpl.
  repeat split.
  - rewrite H. reflexivity.
  - intros He. destruct (_ =? _); [exact He | reflexivity].
  - intros Hp. apply Z.eqb_neq in Hp. rewrite Hp. reflexivity.
Qed.

(** C6. In the reentrant strategy [pqGetpwuid] is [getpwuid_r]: one call of
    the primitive with the same five arguments, buffer and length as given,
    whose status is the return value and whose effect on the platform and
    on the caller's memory is the whole effect of the wrapper. *)
Theorem pqGetpwuid_reentrant_delegates cfg uid rb buf len res (w : world T) :
  use_getpwuid_r cfg = true ->
  exists status w',
    pqGetpwuid cfg uid rb buf len res w = Some (status, w')
    /\ (status, plat w', mem w') =
         getpwuid_r uid rb buf len res (plat w) (mem w)
    /\ calls w' = calls w ++ [Call_getpwuid_r uid rb buf len res].
Proof.
  intros Hc. rewrite (pqGetpwuid_reentrant_run _ _ _ _ _ _ _ Hc).
  eexists _, _. split; [reflexivity|]. simpl. split; [|reflexivity].
  destruct (getpwuid_r uid rb buf len res (plat w) (mem w)) as [[c pl] m].
  reflexivity.
Qed.

(** ** pqGethostbyname: status code, [*result] and [*herrno] *)

(** C3. In the legacy strategy [pqGethostbyname] copies [h_errno] into
    [*herrno] exactly when the lookup result is non-null: on success
    [*herrno] holds the [h_errno] of the moment after the lookup and the
    status is 0; on a null result [*herrno] keeps the value it had and the
    status is the failure sentinel -1.  ([*herrno] and [*result] are
    distinct objects.) *)
Theorem pqGethostbyname_legacy_herrno cfg name rb buf len res herrno
    (w : world T) :
  use_gethostbyname_r cfg = false ->
  is_Some (mem w !! res) ->
  is_Some (mem w !! herrno) ->
  herrno <> res ->
  exists status w',
    pqGethostbyname cfg name rb buf len res herrno w = Some (status, w')
    /\ ((gethostbyname name (plat w)).1 <> NULL ->
        status = 0
        /\ mem w' !! herrno = Some (h_errno (gethostbyname name (plat w)).2))
    /\ ((gethostbyname name (plat w)).1 = NULL ->
        status = -1 /\ mem w' !! herrno = mem w !! herrno).
Proof.
  intros Hc Hres Hh Hne.
  destruct (decide ((gethostbyname name (plat w)).1 = NULL)) as [Hp|Hp].
  - rewrite (pqGethostbyname_legacy_null _ _ _ _ _ _ _ _ Hc Hres Hp).
    eexists _, _. split; [reflexivity|]. simpl. split; [tauto|].
    intros _. split; [reflexivity|]. apply lookup_insert_ne. congruence.
  - rewrite (pqGethostbyname_legacy_nonnull _ _ _ _ _ _ _ _ Hc Hres Hh Hp).
    eexists _, _. split; [reflexivity|]. simpl. split; [|tauto].
    intros _. rewrite decide_False by exact Hne.
    apply Z.eqb_neq in Hp. rewrite Hp. split; [reflexivity|].
    apply lookup_insert_eq.
Qed.

(** C4. In the reentrant strategy [pqGethostbyname] stores the pointer that
    [gethostbyname_r] returns into [*result] and derives the status from it
    alone: 0 when the pointer is non-null, the non-zero sentinel -1 when it
    is null. *)
Theorem pqGethostbyname_reentrant_status cfg name rb buf len res herrno
    (w : world T) :
  use_gethostbyname_r cfg = true ->
  is_Some ((gethostbyname_r name rb buf len herrno (plat w) (mem w)).2 !! res) ->
  exists status w',
    pqGethostbyname cfg name rb buf len res herrno w = Some (status, w')
    /\ mem w' !! res =
         Some (gethostbyname_r name rb buf len herrno (plat w) (mem w)).1.1
    /\ (mem w' !! res <> Some NULL -> status = 0)
    /\ (mem w' !! res = Some NULL -> status = -1 /\ status <> 0).
Proof.
  intros Hc Hres.
  rewrite (pqGethostbyname_reentrant_run _ _ _ _ _ _ _ _ Hc Hres).
  eexists _, _. split; [reflexivity|]. simpl. rewrite lookup_insert_eq.
  split; [reflexivity|]. split.
  - intros Hp. destruct (Z.eqb_spec
      (gethostbyname_r name rb buf len herrno (plat w) (mem w)).1.1 NULL)
      as [E|E]; [|reflexivity].
    rewrite E in Hp. congruence.
  - intros Hp. injection Hp as Hp. rewrite Hp. simpl. split; [reflexivity|lia].
Qed.

(** C8. In both strategies [pqGethostbyname] returns 0 or -1 and nothing
    else, and 0 exactly when [*result] is non-null on return.  In the legacy
    strategy a failed lookup leaves status -1 and the caller's memory with
    [*result] nulled and nothing else written, whatever the platform state:
    two failed lookups on platforms that differ (in the reason they leave in
    [h_errno], say) end with the same status and the same caller memory. *)
Theorem pqGethostbyname_status cfg name rb buf len res herrno (w : world T) :
  is_Some (mem w !! res) ->
  is_Some (mem w !! herrno) ->
  (use_gethostbyname_r cfg = true ->
   is_Some ((gethostbyname_r name rb buf len herrno (plat w) (mem w)).2 !! res)) ->
  exists status w',
    pqGethostbyname cfg name rb buf len res herrno w = Some (status, w')
    /\ (status = 0 \/ status = -1)
    /\ (status = 0 <-> exists p, mem w' !! res = Some p /\ p <> NULL)
    /\ (use_gethostbyname_r cfg = false ->
        (gethostbyname name (plat w)).1 = NULL ->
        status = -1
        /\ mem w' = <[res := NULL]> (mem w)
        /\ forall w2 : world T,
             mem w2 = mem w ->
             (gethostbyname name (plat w2)).1 = NULL ->
             exists w2',
               pqGethostbyname cfg name rb buf len res herrno w2
                 = Some (status, w2')
               /\ mem w2' = mem w').
Proof.
  intros Hres Hh Hkeep.
  destruct (use_gethostbyname_r cfg) eqn:Hc.
  - rewrite (pqGethostbyname_reentrant_run _ _ _ _ _ _ _ _ Hc (Hkeep eq_refl)).
    eexists _, _. split; [reflexivity|]. simpl. rewrite lookup_insert_eq.
    destruct (Z.eqb_spec
      (gethostbyname_r name rb buf len herrno (plat w) (mem w)).1.1 NULL)
      as [E|E].
    + split; [right; reflexivity|]. split; [|discriminate].
      split; [discriminate|]. intros (q & Hq & Hqn). congruence.
    + split; [left; reflexivity|]. split; [|discriminate].
      split; [eauto|reflexivity].
  - destruct (decide ((gethostbyname name (plat w)).1 = NULL)) as [Hp|Hp].
    + rewrite (pqGethostbyname_legacy_null _ _ _ _ _ _ _ _ Hc Hres Hp).
      eexists _, _. split; [reflexivity|]. simpl. rewrite lookup_insert_eq.
      split; [right; reflexivity|]. split.
      * split; [discriminate|]. intros (q & Hq & Hqn). congruence.
      * intros _ _. split; [reflexivity|]. split; [reflexivity|].
        intros w2 Hm Hp2.
        assert (Hres2 : is_Some (mem w2 !! res)) by (rewrite Hm; exact Hres).
        rewrite (pqGethostbyname_legacy_null _ _ _ _ _ _ _ _ Hc Hres2 Hp2).
        eexists. split; [reflexivity|]. simpl. rewrite Hm. reflexivity.
    + rewrite (pqGethostbyname_legacy_nonnull _ _ _ _ _ _ _ _ Hc Hres Hh Hp).
      eexists _, _. split; [reflexivity|]. simpl.
      rewrite lookup_insert. rewrite lookup_insert_eq.
      case_decide as Hd.
      * destruct (Z.eqb_spec (h_errno (gethostbyname name (plat w)).2) NULL)
          as [E|E].
        -- split; [right; reflexivity|]. split; [|tauto].
           split; [discriminate|]. intros (q & Hq & Hqn). congruence.
        -- split; [left; reflexivity|]. split; [|tauto].
           split; [eauto|reflexivity].
      * destruct (Z.eqb_spec (gethostbyname name (plat w)).1 NULL) as [E|E];
          [contradiction|].
        split; [left; reflexivity|]. split; [|tauto].
        split; [eauto|reflexivity].
Qed.

(** ** Frame and output slots *)

(** C9. In the legacy strategy neither wrapper reads or writes through
    [resultbuf] or [buffer], nor looks at [buflen]: every cell of the
    caller's memory other than [*result] (and [*herrno] for
    [pqGethostbyname]) is as before; the status and the reference left in
    [*result] are the same for any other record, buffer and length (zero
    included) and any other contents of the caller's memory; and the
    reference left in [*result] is the pointer the legacy primitive returned,
    which, being platform storage, is no cell of the caller's. *)
Theorem legacy_ignores_caller_buffers cfg uid name rb buf len res herrno
    (w : world T) :
  use_getpwuid_r cfg = false ->
  use_gethostbyname_r cfg = false ->
  is_Some (mem w !! res) ->
  is_Some (mem w !! herrno) ->
  herrno <> res ->
  mem w !! (getpwuid uid (clear_errno (plat w))).1 = None ->
  mem w !! (gethostbyname name (plat w)).1 = None ->
  exists s1 w1 s2 w2,
    pqGetpwuid cfg uid rb buf len res w = Some (s1, w1)
    /\ pqGethostbyname cfg name rb buf len res herrno w = Some (s2, w2)
    /\ (forall a, a <> res -> mem w1 !! a = mem w !! a)
    /\ (forall a, a <> res -> a <> herrno -> mem w2 !! a = mem w !! a)
    /\ (forall rb' buf' len' m',
          is_Some (m' !! res) -> is_Some (m' !! herrno) ->
          exists w1' w2',
            pqGetpwuid cfg uid rb' buf' len' res (World (plat w) m' (calls w))
              = Some (s1, w1')
            /\ pqGethostbyname cfg name rb' buf' len' res herrno
                 (World (plat w) m' (calls w)) = Some (s2, w2')
            /\ mem w1' !! res = mem w1 !! res
            /\ mem w2' !! res = mem w2 !! res)
    /\ mem w1 !! res = Some (getpwuid uid (clear_errno (plat w))).1
    /\ mem w2 !! res = Some (gethostbyname name (plat w)).1
    /\ (forall a p,
          is_Some (mem w !! a) ->
          mem w1 !! res = Some p \/ mem w2 !! res = Some p -> p <> a).
Proof.
  intros Hc1 Hc2 Hres Hh Hne Hs1 Hs2.
  assert (Hpw : forall rb' buf' len' m', is_Some (m' !! res) ->
    pqGetpwuid cfg uid rb' buf' len' res (World (plat w) m' (calls w)) =
    Some (if (getpwuid uid (clear_errno (plat w))).1 =? NULL
          then errno (getpwuid uid (clear_errno (plat w))).2 else 0,
          World (getpwuid uid (clear_errno (plat w))).2
                (<[res := (getpwuid uid (clear_errno (plat w))).1]> m')
                (calls w ++ [Call_getpwuid uid]))).
  { intros rb' buf' len' m' Hm.
    exact (pqGetpwuid_legacy_run cfg uid rb' buf' len' res
             (World (plat w) m' (calls w)) Hc1 Hm). }
  rewrite (pqGetpwuid_legacy_run _ _ _ _ _ _ _ Hc1 Hres).
  destruct (decide ((gethostbyname name (plat w)).1 = NULL)) as [Hp|Hp].
  - rewrite (pqGethostbyname_legacy_null _ _ _ _ _ _ _ _ Hc2 Hres Hp).
    eexists _, _, _, _. split; [reflexivity|]. split; [reflexivity|]. simpl.
    split; [intros a Ha; apply lookup_insert_ne; congruence|].
    split; [intros a Ha _; apply lookup_insert_ne; congruence|].
    split.
    { intros rb' buf' len' m' Hm Hm'. rewrite (Hpw rb' buf' len' m' Hm).
      rewrite (pqGethostbyname_legacy_null cfg name rb' buf' len' res herrno
                 (World (plat w) m' (calls w)) Hc2 Hm Hp).
      eexists _, _. split; [reflexivity|]. split; [reflexivity|]. simpl.
      rewrite !lookup_insert_eq. split; reflexivity. }
    rewrite !lookup_insert_eq. split; [reflexivity|].
    split; [rewrite Hp; reflexivity|].
    rewrite Hp in Hs2.
    intros a p [v Hv] [Hq|Hq]; injection Hq as <-; intros E; subst a;
      congruence.
  - rewrite (pqGethostbyname_legacy_nonnull _ _ _ _ _ _ _ _ Hc2 Hres Hh Hp).
    eexists _, _, _, _. split; [reflexivity|]. split; [reflexivity|]. simpl.
    split; [intros a Ha; apply lookup_insert_ne; congruence|].
    split.
    { intros a Ha Ha'. rewrite !lookup_insert_ne by congruence. reflexivity. }
    split.
    { intros rb' buf' len' m' Hm Hm'. rewrite (Hpw rb' buf' len' m' Hm).
      rewrite (pqGethostbyname_legacy_nonnull cfg name rb' buf' len' res herrno
                 (World (plat w) m' (calls w)) Hc2 Hm Hm' Hp).
      eexists _, _. split; [reflexivity|]. split; [reflexivity|]. simpl.
      rewrite !(lookup_insert_ne _ herrno res) by exact Hne.
      rewrite !lookup_insert_eq. split; reflexivity. }
    rewrite (lookup_insert_ne _ herrno res) by exact Hne.
    rewrite !lookup_insert_eq. split; [reflexivity|]. split; [reflexivity|].
    intros a p [v Hv] [Hq|Hq]; injection Hq as <-; intros E; subst a;
      congruence.
Qed.

(** ** Undersized buffers *)

(** C5, as the code has it.  [pqGetpwuid] never retries: it invokes one
    primitive once, with the buffer and length it was given.  In the
    reentrant strategy, when [getpwuid_r] rejects the buffer with error
    number [e] and a null [*result], the wrapper returns [e], non-zero, with
    [*result] null.  In the legacy strategy the buffer and its length are
    not used at all: the call ends the same for every length. *)
Theorem pqGetpwuid_undersized cfg uid rb buf len res (w : world T) e :
  is_Some (mem w !! res) ->
  (use_getpwuid_r cfg = true ->
   getpwuid_r_answers uid rb buf len res (plat w) (mem w) (Failed e)) ->
  exists status w',
    pqGetpwuid cfg uid rb buf len res w = Some (status, w')
    /\ (use_getpwuid_r cfg = true ->
        status = e /\ status <> 0 /\ mem w' !! res = Some NULL
        /\ calls w' = calls w ++ [Call_getpwuid_r uid rb buf len res])
    /\ (use_getpwuid_r cfg = false ->
        calls w' = calls w ++ [Call_getpwuid uid]
        /\ forall len',
             pqGetpwuid cfg uid rb buf len' res w = Some (status, w')).
Proof.
  intros Hres Ho. destruct (use_getpwuid_r cfg) eqn:Hc.
  - rewrite (pqGetpwuid_reentrant_run _ _ _ _ _ _ _ Hc).
    eexists _, _. split; [reflexivity|]. simpl. split; [|discriminate].
    intros _. destruct (Ho eq_refl) as (H0 & Hnz & Hq). simpl in *.
    repeat split; congruence.
  - rewrite (pqGetpwuid_legacy_run _ _ _ _ _ _ _ Hc Hres).
    eexists _, _. split; [reflexivity|]. simpl. split; [discriminate|].
    intros _. split; [reflexivity|]. intros len'.
    apply (pqGetpwuid_legacy_run _ _ _ _ _ _ _ Hc Hres).
Qed.

(** ** Further properties of the two wrappers *)

Lemma pqGethostbyname_legacy_fault cfg name rb buf len res herrno w :
  use_gethostbyname_r cfg = false ->
  mem w !! res = None ->
  pqGethostbyname cfg name rb buf len res herrno w = None.
Proof.
  intros Hc Hv. unfold pqGethostbyname. rewrite Hc.
  unfold bind, call_gethostbyname, store.
  destruct (gethostbyname name (plat w)) as [p pl]. simpl.
  rewrite Hv. reflexivity.
Qed.

Lemma pqGethostbyname_legacy_herrno_fault cfg name rb buf len res herrno w :
  use_gethostbyname_r cfg = false ->
  is_Some (mem w !! res) ->
  mem w !! herrno = None ->
  (gethostbyname name (plat w)).1 <> NULL ->
  pqGethostbyname cfg name rb buf len res herrno w = None.
Proof.
  intros Hc [v Hv] Hh. unfold pqGethostbyname. rewrite Hc.
  unfold bind, call_gethostbyname, store, load, ret, get_h_errno.
  destruct (gethostbyname name (plat w)) as [p pl]. simpl.
  intros Hp. rewrite Hv. simpl. rewrite lookup_insert_eq.
  apply Z.eqb_neq in Hp. rewrite Hp. simpl.
  rewrite lookup_insert_ne by congruence. rewrite Hh. reflexivity.
Qed.

(** X1. Which pointers the legacy paths dereference.  [result] always: with
    an unallocated [result] slot both wrappers fault, whatever the lookup
    finds.  [herrno] only on success: with an unallocated [herrno] (a null
    pointer, say) a failed host lookup still returns -1 with [*result]
    nulled, and a successful one faults. *)
Theorem legacy_pointer_dereferences cfg uid name rb buf len res herrno bad
    (w : world T) :
  use_getpwuid_r cfg = false ->
  use_gethostbyname_r cfg = false ->
  is_Some (mem w !! res) ->
  mem w !! bad = None ->
  pqGetpwuid cfg uid rb buf len bad w = None
  /\ pqGethostbyname cfg name rb buf len bad herrno w = None
  /\ ((gethostbyname name (plat w)).1 = NULL ->
      exists w',
        pqGethostbyname cfg name rb buf len res bad w = Some (-1, w')
        /\ mem w' = <[res := NULL]> (mem w))
  /\ ((gethostbyname name (plat w)).1 <> NULL ->
      pqGethostbyname cfg name rb buf len res bad w = None).
Proof.
  intros Hc1 Hc2 Hres Hbad.
  split; [exact (pqGetpwuid_legacy_fault _ _ _ _ _ _ _ Hc1 Hbad)|].
  split; [exact (pqGethostbyname_legacy_fault _ _ _ _ _ _ _ _ Hc2 Hbad)|].
  split.
  - intros Hp.
    rewrite (pqGethostbyname_legacy_null _ _ _ _ _ _ _ _ Hc2 Hres Hp).
    eexists. split; reflexivity.
  - intros Hp.
    exact (pqGethostbyname_legacy_herrno_fault _ _ _ _ _ _ _ _ Hc2 Hres Hbad Hp).
Qed.

(** X2. [pqGethostbyname] never writes [errno] or [h_errno] and clears
    neither before the lookup: the primitive runs on the platform as it
    is, and the platform after the call is the one the primitive left.  So
    in the legacy strategy, when a successful [gethostbyname] leaves
    [h_errno] alone, [*herrno] receives the value [h_errno] had before the
    call. *)
Theorem pqGethostbyname_ambient_indicators cfg name rb buf len res herrno
    (w : world T) :
  is_Some (mem w !! res) ->
  is_Some (mem w !! herrno) ->
  herrno <> res ->
  (use_gethostbyname_r cfg = true ->
   is_Some ((gethostbyname_r name rb buf len herrno (plat w) (mem w)).2 !! res)) ->
  exists status w',
    pqGethostbyname cfg name rb buf len res herrno w = Some (status, w')
    /\ plat w' =
         (if use_gethostbyname_r cfg
          then (gethostbyname_r name rb buf len herrno (plat w) (mem w)).1.2
          else (gethostbyname name (plat w)).2)
    /\ (use_gethostbyname_r cfg = false ->
        (gethostbyname name (plat w)).1 <> NULL ->
        h_errno (gethostbyname name (plat w)).2 = h_errno (plat w) ->
        mem w' !! herrno = Some (h_errno (plat w))
        /\ h_errno (plat w') = h_errno (plat w)).
Proof.
  intros Hres Hh Hne Hkeep.
  destruct (use_gethostbyname_r cfg) eqn:Hc.
  - rewrite (pqGethostbyname_reentrant_run _ _ _ _ _ _ _ _ Hc (Hkeep eq_refl)).
    eexists _, _. split; [reflexivity|]. simpl. split; [reflexivity|].
    discriminate.
  - destruct (decide ((gethostbyname name (plat w)).1 = NULL)) as [Hp|Hp].
    + rewrite (pqGethostbyname_legacy_null _ _ _ _ _ _ _ _ Hc Hres Hp).
      eexists _, _. split; [reflexivity|]. simpl. split; [reflexivity|].
      intros _ Hp'. contradiction.
    + rewrite (pqGethostbyname_legacy_nonnull _ _ _ _ _ _ _ _ Hc Hres Hh Hp).
      eexists _, _. split; [reflexivity|]. simpl. split; [reflexivity|].
      intros _ _ Hsame. rewrite lookup_insert_eq, Hsame. auto.
Qed.

(** X3. The legacy [pqGetpwuid] is insensitive to the ambient [errno] and
    to what the caller's memory holds: on two worlds that agree on
    [h_errno] and on the platform's private state, the status, the
    reference left in [*result] and the platform state after the call are
    the same. *)
Theorem pqGetpwuid_legacy_insensitive cfg uid rb1 buf1 len1 rb2 buf2 len2 res
    (w1 w2 : world T) :
  use_getpwuid_r cfg = false ->
  h_errno (plat w1) = h_errno (plat w2) ->
  priv (plat w1) = priv (plat w2) ->
  is_Some (mem w1 !! res) ->
  is_Some (mem w2 !! res) ->
  exists s w1' w2',
    pqGetpwuid cfg uid rb1 buf1 len1 res w1 = Some (s, w1')
    /\ pqGetpwuid cfg uid rb2 buf2 len2 res w2 = Some (s, w2')
    /\ mem w1' !! res = mem w2' !! res
    /\ plat w1' = plat w2'.
Proof.
  intros Hc Hh Hp H1 H2.
  rewrite (pqGetpwuid_legacy_run _ _ _ _ _ _ _ Hc H1).
  rewrite (pqGetpwuid_legacy_run _ _ _ _ _ _ _ Hc H2).
  assert (E : clear_errno (plat w1) = clear_errno (plat w2)).
  { unfold clear_errno. rewrite Hh, Hp. reflexivity. }
  rewrite E. eexists _, _, _. split; [reflexivity|]. split; [reflexivity|].
  simpl. rewrite !lookup_insert_eq. split; reflexivity.
Qed.

(** X4. In the reentrant strategy [pqGethostbyname] calls
    [gethostbyname_r] once, with name, record, buffer, length and [herrno]
    as given, and adds a single write of its own, the returned pointer into
    [*result]: every other cell, [*herrno] included, and the platform are as
    the primitive left them. *)
Theorem pqGethostbyname_reentrant_delegates cfg name rb buf len res herrno
    (w : world T) :
  use_gethostbyname_r cfg = true ->
  is_Some ((gethostbyname_r name rb buf len herrno (plat w) (mem w)).2 !! res) ->
  exists status w',
    pqGethostbyname cfg name rb buf len res herrno w = Some (status, w')
    /\ calls w' = calls w ++ [Call_gethostbyname_r name rb buf len herrno]
    /\ plat w' = (gethostbyname_r name rb buf len herrno (plat w) (mem w)).1.2
    /\ (forall a, a <> res ->
        mem w' !! a =
        (gethostbyname_r name rb buf len herrno (plat w) (mem w)).2 !! a)
    /\ (herrno <> res ->
        mem w' !! herrno =
        (gethostbyname_r name rb buf len herrno (plat w) (mem w)).2 !! herrno).
Proof.
  intros Hc Hres.
  rewrite (pqGethostbyname_reentrant_run _ _ _ _ _ _ _ _ Hc Hres).
  eexists _, _. split; [reflexivity|]. simpl.
  split; [reflexivity|]. split; [reflexivity|]. split.
  - intros a Ha. apply lookup_insert_ne. congruence.
  - intros Ha. apply lookup_insert_ne. congruence.
Qed.

(** X5. Which primitive runs is fixed by the preprocessor symbols alone:
    each wrapper invokes exactly one primitive, the reentrant one only when
    [FRONTEND], [ENABLE_THREAD_SAFETY] and its own [HAVE_..._R] are all
    defined.  Without [FRONTEND] or without [ENABLE_THREAD_SAFETY] both
    wrappers use the legacy primitives, and the [HAVE_..._R] symbol of one
    wrapper has no effect on the other. *)
Theorem strategy_selection cfg uid name rb buf len res herrno (w : world T) :
  is_Some (mem w !! res) ->
  is_Some (mem w !! herrno) ->
  (use_gethostbyname_r cfg = true ->
   is_Some ((gethostbyname_r name rb buf len herrno (plat w) (mem w)).2 !! res)) ->
  exists s1 w1 s2 w2,
    pqGetpwuid cfg uid rb buf len res w = Some (s1, w1)
    /\ pqGethostbyname cfg name rb buf len res herrno w = Some (s2, w2)
    /\ calls w1 = calls w ++
         [if FRONTEND cfg && ENABLE_THREAD_SAFETY cfg && HAVE_GETPWUID_R cfg
          then Call_getpwuid_r uid rb buf len res else Call_getpwuid uid]
    /\ calls w2 = calls w ++
         [if FRONTEND cfg && ENABLE_THREAD_SAFETY cfg && HAVE_GETHOSTBYNAME_R cfg
          then Call_gethostbyname_r name rb buf len herrno
          else Call_gethostbyname name]
    /\ (FRONTEND cfg = false \/ ENABLE_THREAD_SAFETY cfg = false ->
        calls w1 = calls w ++ [Call_getpwuid uid]
        /\ calls w2 = calls w ++ [Call_gethostbyname name])
    /\ (forall b,
          pqGetpwuid (Config (FRONTEND cfg) (ENABLE_THREAD_SAFETY cfg)
                        (HAVE_GETPWUID_R cfg) b) uid rb buf len res w
          = Some (s1, w1))
    /\ (forall b,
          pqGethostbyname (Config (FRONTEND cfg) (ENABLE_THREAD_SAFETY cfg)
                             b (HAVE_GETHOSTBYNAME_R cfg))
            name rb buf len res herrno w
          = Some (s2, w2)).
Proof.
  intros Hres Hh Hkeep.
  assert (H1 : exists s1 w1,
    pqGetpwuid cfg uid rb buf len res w = Some (s1, w1)
    /\ calls w1 = calls w ++
         [if use_getpwuid_r cfg
          then Call_getpwuid_r uid rb buf len res else Call_getpwuid uid]).
  { destruct (use_getpwuid_r cfg) eqn:Hc.
    - rewrite (pqGetpwuid_reentrant_run _ _ _ _ _ _ _ Hc). eauto.
    - rewrite (pqGetpwuid_legacy_run _ _ _ _ _ _ _ Hc Hres). eauto. }
  assert (H2 : exists s2 w2,
    pqGethostbyname cfg name rb buf len res herrno w = Some (s2, w2)
    /\ calls w2 = calls w ++
         [if use_gethostbyname_r cfg
          then Call_gethostbyname_r name rb buf len herrno
          else Call_gethostbyname name]).
  { destruct (use_gethostbyname_r cfg) eqn:Hc.
    - rewrite (pqGethostbyname_reentrant_run _ _ _ _ _ _ _ _ Hc
                 (Hkeep eq_refl)). eauto.
    - destruct (decide ((gethostbyname name (plat w)).1 = NULL)) as [Hp|Hp].
      + rewrite (pqGethostbyname_legacy_null _ _ _ _ _ _ _ _ Hc Hres Hp).
        eauto.
      + rewrite (pqGethostbyname_legacy_nonnull _ _ _ _ _ _ _ _ Hc Hres Hh Hp).
        eauto. }
  destruct H1 as (s1 & w1 & E1 & L1). destruct H2 as (s2 & w2 & E2 & L2).
  exists s1, w1, s2, w2.
  split; [exact E1|]. split; [exact E2|].
  split; [exact L1|]. split; [exact L2|]. split.
  - rewrite L1, L2. unfold use_getpwuid_r, use_gethostbyname_r.
    intros [Hf|Hf]; rewrite Hf; simpl; rewrite ?andb_false_r; auto.
  - split; intros b; [rewrite <- E1 | rewrite <- E2]; reflexivity.
Qed.

Lemma pqGetpwuid_outcome cfg uid rb buf len res (w : world T) o :
  is_Some (mem w !! res) ->
  lookup_answers cfg uid rb buf len res w o ->
  exists status w',
    pqGetpwuid cfg uid rb buf len res w = Some (status, w')
    /\ three_way o status (mem w' !! res).
Proof.
  intros Hres Ho. unfold lookup_answers in Ho.
  destruct (use_getpwuid_r cfg) eqn:Hc.
  - rewrite (pqGetpwuid_reentrant_run _ _ _ _ _ _ _ Hc).
    eexists _, _. split; [reflexivity|]. simpl.
    unfold getpwuid_r_answers in Ho.
    destruct o as [| |e]; simpl in *.
    + destruct Ho as (H0 & q & Hq & Hnz). eauto.
    + exact Ho.
    + destruct Ho as (H0 & Hnz & Hq). repeat split; congruence.
  - rewrite (pqGetpwuid_legacy_run _ _ _ _ _ _ _ Hc Hres).
    eexists _, _. split; [reflexivity|]. simpl. rewrite lookup_insert_eq.
    unfold getpwuid_answers in Ho.
    destruct o as [| |e]; simpl in *.
    + apply Z.eqb_neq in Ho as Hb. rewrite Hb. eauto.
    + destruct Ho as [Hp He]. rewrite Hp. simpl. rewrite He. auto.
    + destruct Ho as (Hp & He & Hnz). rewrite Hp. simpl. rewrite He. auto.
Qed.

Lemma three_way_null o s1 s2 (slot1 slot2 : option Z) :
  three_way o s1 slot1 -> three_way o s2 slot2 ->
  s1 = s2 /\ (slot1 = Some NULL <-> slot2 = Some NULL).
Proof.
  destruct o as [| |e]; simpl.
  - intros (-> & p & -> & Hp) (-> & q & -> & Hq). split; [reflexivity|].
    split; intros E; injection E; congruence.
  - intros (-> & ->) (-> & ->). tauto.
  - intros (-> & _ & ->) (-> & _ & ->). tauto.
Qed.

(** X6. The strategy does not show in the outcome of [pqGetpwuid]: two
    builds, each with its own buffers and caller memory, whose primitives
    answer a lookup with the same outcome (found, not found, or the same
    error) return the same status and agree on whether [*result] is null. *)
Theorem pqGetpwuid_strategies_agree cfg1 cfg2 uid
    rb1 buf1 len1 res1 rb2 buf2 len2 res2 (w1 w2 : world T) o :
  is_Some (mem w1 !! res1) ->
  is_Some (mem w2 !! res2) ->
  lookup_answers cfg1 uid rb1 buf1 len1 res1 w1 o ->
  lookup_answers cfg2 uid rb2 buf2 len2 res2 w2 o ->
  exists s w1' w2',
    pqGetpwuid cfg1 uid rb1 buf1 len1 res1 w1 = Some (s, w1')
    /\ pqGetpwuid cfg2 uid rb2 buf2 len2 res2 w2 = Some (s, w2')
    /\ (mem w1' !! res1 = Some NULL <-> mem w2' !! res2 = Some NULL).
Proof.
  intros H1 H2 Ho1 Ho2.
  destruct (pqGetpwuid_outcome _ _ _ _ _ _ _ _ H1 Ho1) as (s1 & w1' & E1 & T1).
  destruct (pqGetpwuid_outcome _ _ _ _ _ _ _ _ H2 Ho2) as (s2 & w2' & E2 & T2).
  destruct (three_way_null _ _ _ _ _ T1 T2) as [<- Hn].
  exists s1, w1', w2'. auto.
Qed.

Lemma pqGethostbyname_by_ptr cfg name rb buf len res herrno (w : world T) :
  is_Some (mem w !! res) ->
  is_Some (mem w !! herrno) ->
  herrno <> res ->
  (use_gethostbyname_r cfg = true ->
   is_Some ((gethostbyname_r name rb buf len herrno (plat w) (mem w)).2 !! res)) ->
  exists w',
    pqGethostbyname cfg name rb buf len res herrno w =
      Some (if host_lookup_ptr cfg name rb buf len herrno w =? NULL
            then -1 else 0, w')
    /\ mem w' !! res = Some (host_lookup_ptr cfg name rb buf len herrno w).
Proof.
  intros Hres Hh Hne Hkeep. unfold host_lookup_ptr.
  destruct (use_gethostbyname_r cfg) eqn:Hc.
  - rewrite (pqGethostbyname_reentrant_run _ _ _ _ _ _ _ _ Hc (Hkeep eq_refl)).
    eexists. split; [reflexivity|]. simpl. apply lookup_insert_eq.
  - destruct (decide ((gethostbyname name (plat w)).1 = NULL)) as [Hp|Hp].
    + rewrite (pqGethostbyname_legacy_null _ _ _ _ _ _ _ _ Hc Hres Hp).
      rewrite Hp. eexists. split; [reflexivity|]. simpl.
      apply lookup_insert_eq.
    + rewrite (pqGethostbyname_legacy_nonnull _ _ _ _ _ _ _ _ Hc Hres Hh Hp).
      rewrite decide_False by exact Hne.
      eexists. split; [reflexivity|]. simpl.
      rewrite lookup_insert_ne by exact Hne. apply lookup_insert_eq.
Qed.

(** X7. The strategy does not show in the status of [pqGethostbyname]
    either: two builds whose primitives agree on whether the lookup yields a
    null pointer return the same status, 0 or -1, and agree on whether
    [*result] is null. *)
Theorem pqGethostbyname_strategies_agree cfg1 cfg2 name
    rb1 buf1 len1 res1 herrno1 rb2 buf2 len2 res2 herrno2 (w1 w2 : world T) :
  is_Some (mem w1 !! res1) -> is_Some (mem w1 !! herrno1) -> herrno1 <> res1 ->
  is_Some (mem w2 !! res2) -> is_Some (mem w2 !! herrno2) -> herrno2 <> res2 ->
  (use_gethostbyname_r cfg1 = true ->
   is_Some ((gethostbyname_r name rb1 buf1 len1 herrno1
               (plat w1) (mem w1)).2 !! res1)) ->
  (use_gethostbyname_r cfg2 = true ->
   is_Some ((gethostbyname_r name rb2 buf2 len2 herrno2
               (plat w2) (mem w2)).2 !! res2)) ->
  (host_lookup_ptr cfg1 name rb1 buf1 len1 herrno1 w1 = NULL <->
   host_lookup_ptr cfg2 name rb2 buf2 len2 herrno2 w2 = NULL) ->
  exists s w1' w2',
    pqGethostbyname cfg1 name rb1 buf1 len1 res1 herrno1 w1 = Some (s, w1')
    /\ pqGethostbyname cfg2 name rb2 buf2 len2 res2 herrno2 w2 = Some (s, w2')
    /\ (s = 0 \/ s = -1)
    /\ (mem w1' !! res1 = Some NULL <-> mem w2' !! res2 = Some NULL).
Proof.
  intros R1 H1 N1 R2 H2 N2 K1 K2 Hiff.
  destruct (pqGethostbyname_by_ptr cfg1 name rb1 buf1 len1 res1 herrno1 w1
              R1 H1 N1 K1) as (w1' & E1 & S1).
  destruct (pqGethostbyname_by_ptr cfg2 name rb2 buf2 len2 res2 herrno2 w2
              R2 H2 N2 K2) as (w2' & E2 & S2).
  rewrite E1, E2.
  destruct (Z.eqb_spec (host_lookup_ptr cfg1 name rb1 buf1 len1 herrno1 w1)
              NULL) as [A|A];
  destruct (Z.eqb_spec (host_lookup_ptr cfg2 name rb2 buf2 len2 herrno2 w2)
              NULL) as [B|B]; try tauto.
  - exists (-1), w1', w2'. split; [reflexivity|]. split; [reflexivity|].
    split; [auto|]. rewrite S1, S2, A, B. tauto.
  - exists 0, w1', w2'. split; [reflexivity|]. split; [reflexivity|].
    split; [auto|]. rewrite S1, S2.
    split; intros E; injection E; tauto.
Qed.

(** X8. Two legacy [pqGetpwuid] calls in a row: the second starts from
    [errno] cleared again, so what the first left in [errno] never shows in
    the second status: a second lookup that returns null without touching
    [errno] has status 0 whatever the first status was.  With distinct
    result slots the first slot keeps its reference, and the log holds the
    two [getpwuid] calls in order. *)
Theorem stale_errno_does_not_leak cfg uid1 uid2 rb buf len res1 res2
    (w : world T) :
  use_getpwuid_r cfg = false ->
  is_Some (mem w !! res1) ->
  is_Some (mem w !! res2) ->
  exists s1 w1 s2 w2,
    pqGetpwuid cfg uid1 rb buf len res1 w = Some (s1, w1)
    /\ pqGetpwuid cfg uid2 rb buf len res2 w1 = Some (s2, w2)
    /\ ((getpwuid uid2 (clear_errno (plat w1))).1 = NULL ->
        errno (getpwuid uid2 (clear_errno (plat w1))).2 = 0 ->
        s2 = 0 /\ mem w2 !! res2 = Some NULL)
    /\ (res1 <> res2 -> mem w2 !! res1 = mem w1 !! res1)
    /\ calls w2 = calls w ++ [Call_getpwuid uid1; Call_getpwuid uid2].
Proof.
  intros Hc H1 H2.
  rewrite (pqGetpwuid_legacy_run _ _ _ _ _ _ _ Hc H1).
  eexists _, _. 
  assert (H2' : is_Some (<[res1 := (getpwuid uid1 (clear_errno (plat w))).1]>
                           (mem w) !! res2)).
  { rewrite lookup_insert. case_decide; eauto. }
  eexists _, _. split; [reflexivity|].
  split; [apply (pqGetpwuid_legacy_run _ _ _ _ _ _ _ Hc); exact H2'|].
  simpl. split; [|split].
  - intros Hp He. rewrite Hp, He. simpl. rewrite lookup_insert_eq. auto.
  - intros Hne. apply lookup_insert_ne. congruence.
  - rewrite <- app_assoc. reflexivity.
Qed.

(** ** Leftovers in the output slots, and repeated calls *)

(** C10. On every path of both strategies the value in [*result] after the
    call is one that the call put there, never the one the slot held
    before: the call ends with the same [*result] whatever was left over in
    the slot.  In the legacy strategy it is the pointer the wrapper stored,
    the return value of [getpwuid] or [gethostbyname]; in the reentrant
    [pqGethostbyname] the return value of [gethostbyname_r], stored by the
    wrapper; in the reentrant [pqGetpwuid] the store is the one
    [getpwuid_r] makes.  [*herrno] is the one output that can keep its prior
    value: the legacy [pqGethostbyname] leaves it as it was when the lookup
    result is null. *)
Theorem result_slot_always_assigned cfg uid name rb buf len res herrno
    (w : world T) :
  (is_Some (mem w !! res) ->
   (use_getpwuid_r cfg = true ->
    getpwuid_r_sets_result uid rb buf len res (plat w) (mem w)) ->
   exists s w',
     pqGetpwuid cfg uid rb buf len res w = Some (s, w')
     /\ is_Some (mem w' !! res)
     /\ (use_getpwuid_r cfg = false ->
         mem w' !! res = Some (getpwuid uid (clear_errno (plat w))).1)
     /\ (forall u, exists su wu',
           pqGetpwuid cfg uid rb buf len res (with_leftover w res u)
             = Some (su, wu')
           /\ mem wu' !! res = mem w' !! res))
  /\
  (is_Some (mem w !! res) ->
   is_Some (mem w !! herrno) ->
   herrno <> res ->
   (use_gethostbyname_r cfg = true ->
    gethostbyname_r_blind name rb buf len herrno res (plat w) (mem w)) ->
   exists s w',
     pqGethostbyname cfg name rb buf len res herrno w = Some (s, w')
     /\ mem w' !! res =
          Some (if use_gethostbyname_r cfg
                then (gethostbyname_r name rb buf len herrno
                        (plat w) (mem w)).1.1
                else (gethostbyname name (plat w)).1)
     /\ (forall u, exists su wu',
           pqGethostbyname cfg name rb buf len res herrno
             (with_leftover w res u) = Some (su, wu')
           /\ mem wu' !! res = mem w' !! res)
     /\ (use_gethostbyname_r cfg = false ->
         (gethostbyname name (plat w)).1 = NULL ->
         mem w' !! herrno = mem w !! herrno)).
Proof.
  split.
  - intros [c Hc] Hsets.
    destruct (use_getpwuid_r cfg) eqn:Hcfg.
    + pose proof (Hsets eq_refl) as Hs.
      rewrite (pqGetpwuid_reentrant_run _ _ _ _ _ _ _ Hcfg).
      eexists _, _. split; [reflexivity|]. simpl.
      split; [|split; [discriminate|]].
      * destruct (Hs c) as [Ha _]. rewrite (insert_id _ _ _ Hc) in Ha.
        exact Ha.
      * intros u.
        rewrite (pqGetpwuid_reentrant_run _ _ _ _ _ _ _ Hcfg).
        eexists _, _. split; [reflexivity|]. simpl.
        destruct (Hs u) as [_ He]. exact He.
    + assert (Hres : is_Some (mem w !! res)) by eauto.
      rewrite (pqGetpwuid_legacy_run _ _ _ _ _ _ _ Hcfg Hres).
      eexists _, _. split; [reflexivity|]. simpl.
      rewrite lookup_insert_eq.
      split; [eauto|]. split; [reflexivity|].
      intros u.
      assert (Hu : is_Some (mem (with_leftover w res u) !! res)).
      { simpl. rewrite lookup_insert_eq. eauto. }
      rewrite (pqGetpwuid_legacy_run _ _ _ _ _ _ _ Hcfg Hu).
      eexists _, _. split; [reflexivity|]. simpl.
      apply lookup_insert_eq.
  - intros [c Hc] Hh Hne Hblind.
    assert (Hres : is_Some (mem w !! res)) by eauto.
    assert (Hkeep : use_gethostbyname_r cfg = true ->
      is_Some ((gethostbyname_r name rb buf len herrno
                  (plat w) (mem w)).2 !! res)).
    { intros E. destruct (Hblind E c) as [Ha _].
      rewrite (insert_id _ _ _ Hc) in Ha. exact Ha. }
    destruct (pqGethostbyname_by_ptr cfg name rb buf len res herrno w
                Hres Hh Hne Hkeep) as (w' & Erun & Eres).
    eexists _, w'. split; [exact Erun|].
    split; [exact Eres|]. split.
    + intros u.
      assert (Hu : is_Some (mem (with_leftover w res u) !! res)).
      { simpl. rewrite lookup_insert_eq. eauto. }
      assert (Hhu : is_Some (mem (with_leftover w res u) !! herrno)).
      { simpl. rewrite lookup_insert_ne by congruence. exact Hh. }
      assert (Hku : use_gethostbyname_r cfg = true ->
        is_Some ((gethostbyname_r name rb buf len herrno
                    (plat (with_leftover w res u))
                    (mem (with_leftover w res u))).2 !! res)).
      { intros E. destruct (Hblind E u) as [Ha _]. exact Ha. }
      destruct (pqGethostbyname_by_ptr cfg name rb buf len res herrno
                  (with_leftover w res u) Hu Hhu Hne Hku)
        as (wu' & Eu & Eresu).
      eexists _, wu'. split; [exact Eu|].
      rewrite Eresu, Eres. f_equal. unfold host_lookup_ptr.
      destruct (use_gethostbyname_r cfg) eqn:Hcfg; [|reflexivity].
      destruct (Hblind eq_refl u) as [_ He]. exact He.
    + intros Hcfg Hp.
      rewrite (pqGethostbyname_legacy_null _ _ _ _ _ _ _ _ Hcfg Hres Hp)
        in Erun.
      injection Erun as _ <-. simpl. apply lookup_insert_ne. congruence.
Qed.

(** C7, as the code has it.  Two calls with the same arguments, between
    which the underlying lookup is unchanged (the primitive answers the
    second time as the first), end alike whatever else differs: the ambient
    [errno], the calls made before, the leftovers in the buffers.
    [pqGetpwuid] returns the same status and leaves the same [*result].
    [pqGethostbyname] returns the same status and leaves the same
    [*result], and the same [*herrno] in the reentrant strategy and after a
    successful legacy lookup; after a failed legacy lookup [*herrno] is, in
    each call, what the slot held before. *)
Theorem wrappers_deterministic cfg uid name rb buf len res herrno
    (w1 w2 : world T) :
  (is_Some (mem w1 !! res) ->
   is_Some (mem w2 !! res) ->
   pw_lookup_alike cfg uid rb buf len res w1 w2 ->
   exists s w1' w2',
     pqGetpwuid cfg uid rb buf len res w1 = Some (s, w1')
     /\ pqGetpwuid cfg uid rb buf len res w2 = Some (s, w2')
     /\ mem w1' !! res = mem w2' !! res)
  /\
  (is_Some (mem w1 !! res) -> is_Some (mem w1 !! herrno) ->
   is_Some (mem w2 !! res) -> is_Some (mem w2 !! herrno) ->
   herrno <> res ->
   (use_gethostbyname_r cfg = true ->
    is_Some ((gethostbyname_r name rb buf len herrno
                (plat w1) (mem w1)).2 !! res)
    /\ is_Some ((gethostbyname_r name rb buf len herrno
                   (plat w2) (mem w2)).2 !! res)) ->
   host_lookup_alike cfg name rb buf len herrno w1 w2 ->
   exists s w1' w2',
     pqGethostbyname cfg name rb buf len res herrno w1 = Some (s, w1')
     /\ pqGethostbyname cfg name rb buf len res herrno w2 = Some (s, w2')
     /\ mem w1' !! res = mem w2' !! res
     /\ (use_gethostbyname_r cfg = true
         \/ (gethostbyname name (plat w1)).1 <> NULL ->
         mem w1' !! herrno = mem w2' !! herrno)
     /\ (use_gethostbyname_r cfg = false ->
         (gethostbyname name (plat w1)).1 = NULL ->
         mem w1' !! herrno = mem w1 !! herrno
         /\ mem w2' !! herrno = mem w2 !! herrno)).
Proof.
  split.
  - intros H1 H2 Ha. unfold pw_lookup_alike in Ha.
    destruct (use_getpwuid_r cfg) eqn:Hcfg.
    + destruct Ha as [Hs Hr].
      rewrite !(pqGetpwuid_reentrant_run _ _ _ _ _ _ _ Hcfg). rewrite Hs.
      eexists _, _, _. split; [reflexivity|]. split; [reflexivity|].
      exact Hr.
    + destruct Ha as [Hp He].
      rewrite (pqGetpwuid_legacy_run _ _ _ _ _ _ _ Hcfg H1).
      rewrite (pqGetpwuid_legacy_run _ _ _ _ _ _ _ Hcfg H2).
      rewrite Hp, He.
      eexists _, _, _. split; [reflexivity|]. split; [reflexivity|].
      simpl. rewrite !lookup_insert_eq. reflexivity.
  - intros R1 E1 R2 E2 Hne Hkeep Ha. unfold host_lookup_alike in Ha.
    destruct (use_gethostbyname_r cfg) eqn:Hcfg.
    + destruct Ha as [Hp Hh]. destruct (Hkeep eq_refl) as [K1 K2].
      rewrite (pqGethostbyname_reentrant_run _ _ _ _ _ _ _ _ Hcfg K1).
      rewrite (pqGethostbyname_reentrant_run _ _ _ _ _ _ _ _ Hcfg K2).
      rewrite Hp.
      eexists _, _, _. split; [reflexivity|]. split; [reflexivity|].
      simpl. rewrite !lookup_insert_eq. split; [reflexivity|].
      split; [|discriminate].
      intros _. rewrite !(lookup_insert_ne _ res herrno) by congruence.
      exact Hh.
    + destruct Ha as [Hp Hh].
      destruct (decide ((gethostbyname name (plat w1)).1 = NULL)) as [N1|N1].
      * assert (N2 : (gethostbyname name (plat w2)).1 = NULL) by congruence.
        rewrite (pqGethostbyname_legacy_null _ _ _ _ _ _ _ _ Hcfg R1 N1).
        rewrite (pqGethostbyname_legacy_null _ _ _ _ _ _ _ _ Hcfg R2 N2).
        eexists _, _, _. split; [reflexivity|]. split; [reflexivity|].
        simpl. rewrite !lookup_insert_eq. split; [reflexivity|]. split.
        -- intros [E|E]; [discriminate | contradiction].
        -- intros _ _.
           rewrite !(lookup_insert_ne _ res herrno) by congruence. auto.
      * assert (N2 : (gethostbyname name (plat w2)).1 <> NULL) by congruence.
        rewrite (pqGethostbyname_legacy_nonnull _ _ _ _ _ _ _ _ Hcfg R1 E1 N1).
        rewrite (pqGethostbyname_legacy_nonnull _ _ _ _ _ _ _ _ Hcfg R2 E2 N2).
        rewrite !decide_False by exact Hne. rewrite Hp.
        eexists _, _, _. split; [reflexivity|]. split; [reflexivity|].
        simpl. rewrite !(lookup_insert_ne _ herrno res) by exact Hne.
        rewrite !lookup_insert_eq. split; [reflexivity|]. split.
        -- intros _. rewrite Hh. reflexivity.
        -- intros _ Hn. contradiction.
Qed.

End Properties.

(** ** The statements on the concrete platform *)

Section Runs.

Import Toy.

#[local] Existing Instance libc.

(** C5, as stated, fails in the legacy strategy: with a buffer of length
    zero the lookup of uid 0 succeeds, status 0 and a non-null [*result]. *)
Lemma undersized_buffer_legacy_succeeds :
  exists status w',
    pqGetpwuid legacy 0 rb0 buf0 0 res0 w0 = Some (status, w')
    /\ status = 0
    /\ mem w' !! res0 = Some pw_static
    /\ ~ (status <> 0 /\ mem w' !! res0 = Some NULL).
Proof.
  eexists _, _. split; [vm_compute; reflexivity|].
  split; [reflexivity|]. split; [vm_compute; reflexivity|].
  intros [H _]. apply H. reflexivity.
Qed.

(** The failing lookup of uid 13 in the legacy strategy. *)
Lemma pqGetpwuid_three_way_witness :
  exists status w',
    pqGetpwuid legacy 13 rb0 buf0 4 res0 w0 = Some (status, w')
    /\ three_way (Failed EIO) status (mem w' !! res0)
    /\ ~ (status <> 0 /\ exists p, mem w' !! res0 = Some p /\ p <> NULL)
    /\ (Failed EIO = NotFound -> status = 0).
Proof.
  apply (pqGetpwuid_three_way (L := libc) legacy 13 rb0 buf0 4 res0 w0
           (Failed EIO)).
  - allocated.
  - vm_compute. repeat split; discriminate.
Defined.

Lemma pqGetpwuid_legacy_errno_witness :
  exists status w',
    pqGetpwuid legacy 13 rb0 buf0 4 res0 w0 = Some (status, w')
    /\ errno (clear_errno (plat w0)) = 0
    /\ plat w' = (getpwuid 13 (clear_errno (plat w0))).2
    /\ calls w' = calls w0 ++ [Call_getpwuid 13]
    /\ ((getpwuid 13 (clear_errno (plat w0))).1 = NULL ->
        status = errno (plat w')
        /\ (errno (plat w') = errno (clear_errno (plat w0)) -> status = 0))
    /\ ((getpwuid 13 (clear_errno (plat w0))).1 <> NULL -> status = 0).
Proof.
  apply (pqGetpwuid_legacy_errno (L := libc) legacy 13 rb0 buf0 4 res0 w0).
  - reflexivity.
  - allocated.
Defined.

Lemma pqGetpwuid_reentrant_delegates_witness :
  exists status w',
    pqGetpwuid reentrant 0 rb0 buf0 4 res0 w0 = Some (status, w')
    /\ (status, plat w', mem w') =
         getpwuid_r 0 rb0 buf0 4 res0 (plat w0) (mem w0)
    /\ calls w' = calls w0 ++ [Call_getpwuid_r 0 rb0 buf0 4 res0].
Proof.
  apply (pqGetpwuid_reentrant_delegates (L := libc) reentrant 0 rb0 buf0 4
           res0 w0).
  reflexivity.
Defined.

Lemma pqGetpwuid_undersized_witness :
  exists status w',
    pqGetpwuid reentrant 0 rb0 buf0 0 res0 w0 = Some (status, w')
    /\ (use_getpwuid_r reentrant = true ->
        status = ERANGE /\ status <> 0 /\ mem w' !! res0 = Some NULL
        /\ calls w' = calls w0 ++ [Call_getpwuid_r 0 rb0 buf0 0 res0])
    /\ (use_getpwuid_r reentrant = false ->
        calls w' = calls w0 ++ [Call_getpwuid 0]
        /\ forall len',
             pqGetpwuid reentrant 0 rb0 buf0 len' res0 w0 = Some (status, w')).
Proof.
  apply (pqGetpwuid_undersized (L := libc) reentrant 0 rb0 buf0 0 res0 w0
           ERANGE).
  - allocated.
  - intros _. vm_compute. repeat split; discriminate.
Defined.

Lemma pqGethostbyname_legacy_herrno_witness :
  exists status w',
    pqGethostbyname legacy "nohost" rb0 buf0 4 res0 herrno0 w0 = Some (status, w')
    /\ ((gethostbyname "nohost" (plat w0)).1 <> NULL ->
        status = 0
        /\ mem w' !! herrno0 = Some (h_errno (gethostbyname "nohost" (plat w0)).2))
    /\ ((gethostbyname "nohost" (plat w0)).1 = NULL ->
        status = -1 /\ mem w' !! herrno0 = mem w0 !! herrno0).
Proof.
  apply (pqGethostbyname_legacy_herrno (L := libc) legacy "nohost" rb0 buf0 4
           res0 herrno0 w0).
  - reflexivity.
  - allocated.
  - allocated.
  - vm_compute. discriminate.
Defined.

Lemma pqGethostbyname_reentrant_status_witness :
  exists status w',
    pqGethostbyname reentrant "localhost" rb0 buf0 4 res0 herrno0 w0 = Some (status, w')
    /\ mem w' !! res0 =
         Some (gethostbyname_r "localhost" rb0 buf0 4 herrno0
                 (plat w0) (mem w0)).1.1
    /\ (mem w' !! res0 <> Some NULL -> status = 0)
    /\ (mem w' !! res0 = Some NULL -> status = -1 /\ status <> 0).
Proof.
  apply (pqGethostbyname_reentrant_status (L := libc) reentrant "localhost"
           rb0 buf0 4 res0 herrno0 w0).
  - reflexivity.
  - allocated.
Defined.

Lemma pqGethostbyname_status_witness :
  exists status w',
    pqGethostbyname legacy "nohost" rb0 buf0 4 res0 herrno0 w0 = Some (status, w')
    /\ (status = 0 \/ status = -1)
    /\ (status = 0 <-> exists p, mem w' !! res0 = Some p /\ p <> NULL)
    /\ (use_gethostbyname_r legacy = false ->
        (gethostbyname "nohost" (plat w0)).1 = NULL ->
        status = -1
        /\ mem w' = <[res0 := NULL]> (mem w0)
        /\ forall w2 : world unit,
             mem w2 = mem w0 ->
             (gethostbyname "nohost" (plat w2)).1 = NULL ->
             exists w2',
               pqGethostbyname legacy "nohost" rb0 buf0 4 res0 herrno0 w2
                 = Some (status, w2')
               /\ mem w2' = mem w').
Proof.
  apply (pqGethostbyname_status (L := libc) legacy "nohost" rb0 buf0 4 res0
           herrno0 w0).
  - allocated.
  - allocated.
  - vm_compute. discriminate.
Defined.

Lemma legacy_ignores_caller_buffers_witness :
  exists s1 w1 s2 w2,
    pqGetpwuid legacy 0 rb0 buf0 4 res0 w0 = Some (s1, w1)
    /\ pqGethostbyname legacy "localhost" rb0 buf0 4 res0 herrno0 w0 = Some (s2, w2)
    /\ (forall a, a <> res0 -> mem w1 !! a = mem w0 !! a)
    /\ (forall a, a <> res0 -> a <> herrno0 -> mem w2 !! a = mem w0 !! a)
    /\ (forall rb' buf' len' m',
          is_Some (m' !! res0) -> is_Some (m' !! herrno0) ->
          exists w1' w2',
            pqGetpwuid legacy 0 rb' buf' len' res0 (World (plat w0) m' (calls w0))
              = Some (s1, w1')
            /\ pqGethostbyname legacy "localhost" rb' buf' len' res0 herrno0
                 (World (plat w0) m' (calls w0)) = Some (s2, w2')
            /\ mem w1' !! res0 = mem w1 !! res0
            /\ mem w2' !! res0 = mem w2 !! res0)
    /\ mem w1 !! res0 = Some (getpwuid 0 (clear_errno (plat w0))).1
    /\ mem w2 !! res0 = Some (gethostbyname "localhost" (plat w0)).1
    /\ (forall a p,
          is_Some (mem w0 !! a) ->
          mem w1 !! res0 = Some p \/ mem w2 !! res0 = Some p -> p <> a).
Proof.
  apply (legacy_ignores_caller_buffers (L := libc) legacy 0 "localhost"
           rb0 buf0 4 res0 herrno0 w0).
  - reflexivity.
  - reflexivity.
  - allocated.
  - allocated.
  - vm_compute. discriminate.
  - vm_compute. reflexivity.
  - vm_compute. reflexivity.
Defined.

(** Runs of the further properties. *)

Lemma legacy_pointer_dereferences_witness :
  pqGetpwuid legacy 0 rb0 buf0 4 0 w0 = None
  /\ pqGethostbyname legacy "nohost" rb0 buf0 4 0 herrno0 w0 = None
  /\ ((gethostbyname "nohost" (plat w0)).1 = NULL ->
      exists w',
        pqGethostbyname legacy "nohost" rb0 buf0 4 res0 0 w0 = Some (-1, w')
        /\ mem w' = <[res0 := NULL]> (mem w0))
  /\ ((gethostbyname "nohost" (plat w0)).1 <> NULL ->
      pqGethostbyname legacy "nohost" rb0 buf0 4 res0 0 w0 = None).
Proof.
  apply (legacy_pointer_dereferences (L := libc) legacy 0 "nohost" rb0 buf0 4
           res0 herrno0 0 w0).
  - reflexivity.
  - reflexivity.
  - allocated.
  - vm_compute. reflexivity.
Defined.

Lemma pqGethostbyname_ambient_indicators_witness :
  exists status w',
    pqGethostbyname legacy "localhost" rb0 buf0 4 res0 herrno0 w0
      = Some (status, w')
    /\ plat w' =
         (if use_gethostbyname_r legacy
          then (gethostbyname_r "localhost" rb0 buf0 4 herrno0
                  (plat w0) (mem w0)).1.2
          else (gethostbyname "localhost" (plat w0)).2)
    /\ (use_gethostbyname_r legacy = false ->
        (gethostbyname "localhost" (plat w0)).1 <> NULL ->
        h_errno (gethostbyname "localhost" (plat w0)).2 = h_errno (plat w0) ->
        mem w' !! herrno0 = Some (h_errno (plat w0))
        /\ h_errno (plat w') = h_errno (plat w0)).
Proof.
  apply (pqGethostbyname_ambient_indicators (L := libc) legacy "localhost"
           rb0 buf0 4 res0 herrno0 w0).
  - allocated.
  - allocated.
  - vm_compute. discriminate.
  - vm_compute. discriminate.
Defined.

Lemma pqGetpwuid_legacy_insensitive_witness :
  exists s w1' w2',
    pqGetpwuid legacy 13 rb0 buf0 4 res0 w0 = Some (s, w1')
    /\ pqGetpwuid legacy 13 0 0 0 res0 w0' = Some (s, w2')
    /\ mem w1' !! res0 = mem w2' !! res0
    /\ plat w1' = plat w2'.
Proof.
  apply (pqGetpwuid_legacy_insensitive (L := libc) legacy 13 rb0 buf0 4 0 0 0
           res0 w0 w0').
  - reflexivity.
  - reflexivity.
  - reflexivity.
  - allocated.
  - allocated.
Defined.

Lemma pqGethostbyname_reentrant_delegates_witness :
  exists status w',
    pqGethostbyname reentrant "nohost" rb0 buf0 4 res0 herrno0 w0
      = Some (status, w')
    /\ calls w' = calls w0 ++ [Call_gethostbyname_r "nohost" rb0 buf0 4 herrno0]
    /\ plat w' = (gethostbyname_r "nohost" rb0 buf0 4 herrno0
                    (plat w0) (mem w0)).1.2
    /\ (forall a, a <> res0 ->
        mem w' !! a =
        (gethostbyname_r "nohost" rb0 buf0 4 herrno0 (plat w0) (mem w0)).2 !! a)
    /\ (herrno0 <> res0 ->
        mem w' !! herrno0 =
        (gethostbyname_r "nohost" rb0 buf0 4 herrno0
           (plat w0) (mem w0)).2 !! herrno0).
Proof.
  apply (pqGethostbyname_reentrant_delegates (L := libc) reentrant "nohost"
           rb0 buf0 4 res0 herrno0 w0).
  - reflexivity.
  - allocated.
Defined.

Lemma strategy_selection_witness :
  exists s1 w1 s2 w2,
    pqGetpwuid backend 0 rb0 buf0 4 res0 w0 = Some (s1, w1)
    /\ pqGethostbyname backend "localhost" rb0 buf0 4 res0 herrno0 w0
       = Some (s2, w2)
    /\ calls w1 = calls w0 ++
         [if FRONTEND backend && ENABLE_THREAD_SAFETY backend
             && HAVE_GETPWUID_R backend
          then Call_getpwuid_r 0 rb0 buf0 4 res0 else Call_getpwuid 0]
    /\ calls w2 = calls w0 ++
         [if FRONTEND backend && ENABLE_THREAD_SAFETY backend
             && HAVE_GETHOSTBYNAME_R backend
          then Call_gethostbyname_r "localhost" rb0 buf0 4 herrno0
          else Call_gethostbyname "localhost"]
    /\ (FRONTEND backend = false \/ ENABLE_THREAD_SAFETY backend = false ->
        calls w1 = calls w0 ++ [Call_getpwuid 0]
        /\ calls w2 = calls w0 ++ [Call_gethostbyname "localhost"])
    /\ (forall b,
          pqGetpwuid (Config (FRONTEND backend) (ENABLE_THREAD_SAFETY backend)
                        (HAVE_GETPWUID_R backend) b) 0 rb0 buf0 4 res0 w0
          = Some (s1, w1))
    /\ (forall b,
          pqGethostbyname (Config (FRONTEND backend)
                             (ENABLE_THREAD_SAFETY backend)
                             b (HAVE_GETHOSTBYNAME_R backend))
            "localhost" rb0 buf0 4 res0 herrno0 w0
          = Some (s2, w2)).
Proof.
  apply (strategy_selection (L := libc) backend 0 "localhost" rb0 buf0 4 res0
           herrno0 w0).
  - allocated.
  - allocated.
  - vm_compute. discriminate.
Defined.

Lemma pqGetpwuid_strategies_agree_witness :
  exists s w1' w2',
    pqGetpwuid reentrant 13 rb0 buf0 4 res0 w0 = Some (s, w1')
    /\ pqGetpwuid legacy 13 0 0 0 res0 w0' = Some (s, w2')
    /\ (mem w1' !! res0 = Some NULL <-> mem w2' !! res0 = Some NULL).
Proof.
  apply (pqGetpwuid_strategies_agree (L := libc) reentrant legacy 13
           rb0 buf0 4 res0 0 0 0 res0 w0 w0' (Failed EIO)).
  - allocated.
  - allocated.
  - vm_compute. repeat split; discriminate.
  - vm_compute. repeat split; discriminate.
Defined.

Lemma pqGethostbyname_strategies_agree_witness :
  exists s w1' w2',
    pqGethostbyname reentrant "localhost" rb0 buf0 4 res0 herrno0 w0
      = Some (s, w1')
    /\ pqGethostbyname legacy "localhost" 0 0 0 res0 herrno0 w0'
       = Some (s, w2')
    /\ (s = 0 \/ s = -1)
    /\ (mem w1' !! res0 = Some NULL <-> mem w2' !! res0 = Some NULL).
Proof.
  apply (pqGethostbyname_strategies_agree (L := libc) reentrant legacy
           "localhost" rb0 buf0 4 res0 herrno0 0 0 0 res0 herrno0 w0 w0').
  - allocated.
  - allocated.
  - vm_compute. discriminate.
  - allocated.
  - allocated.
  - vm_compute. discriminate.
  - intros _. allocated.
  - vm_compute. discriminate.
  - vm_compute. split; discriminate.
Defined.

Lemma stale_errno_does_not_leak_witness :
  exists s1 w1 s2 w2,
    pqGetpwuid legacy 13 rb0 buf0 4 res0 w0 = Some (s1, w1)
    /\ pqGetpwuid legacy 5 rb0 buf0 4 herrno0 w1 = Some (s2, w2)
    /\ ((getpwuid 5 (clear_errno (plat w1))).1 = NULL ->
        errno (getpwuid 5 (clear_errno (plat w1))).2 = 0 ->
        s2 = 0 /\ mem w2 !! herrno0 = Some NULL)
    /\ (res0 <> herrno0 -> mem w2 !! res0 = mem w1 !! res0)
    /\ calls w2 = calls w0 ++ [Call_getpwuid 13; Call_getpwuid 5].
Proof.
  apply (stale_errno_does_not_leak (L := libc) legacy 13 5 rb0 buf0 4 res0
           herrno0 w0).
  - reflexivity.
  - allocated.
  - allocated.
Defined.

(** C7, as stated, fails on [*herrno]: the same failing legacy host lookup
    on the same platform state, with buffers that differ only in what was
    left in the [*herrno] slot, returns the same status and leaves two
    different [*herrno]. *)
Lemma fresh_buffers_herrno_differs :
  plat w0 = plat w0_fresh
  /\ exists s w1' w2',
       pqGethostbyname legacy "nohost" rb0 buf0 4 res0 herrno0 w0
         = Some (s, w1')
       /\ pqGethostbyname legacy "nohost" rb0 buf0 4 res0 herrno0 w0_fresh
          = Some (s, w2')
       /\ mem w1' !! herrno0 = Some 77
       /\ mem w2' !! herrno0 = Some 12
       /\ mem w1' !! herrno0 <> mem w2' !! herrno0.
Proof.
  split; [reflexivity|].
  eexists _, _, _. split; [vm_compute; reflexivity|].
  split; [vm_compute; reflexivity|].
  split; [vm_compute; reflexivity|].
  split; [vm_compute; reflexivity|].
  vm_compute. discriminate.
Qed.

(** Two calls in a row: [w0_again] is the world the first call leaves. *)
Lemma wrappers_deterministic_witness :
  pqGetpwuid legacy 13 rb0 buf0 4 res0 w0 = Some (EIO, w0_again)
  /\ (exists s w1' w2',
        pqGetpwuid legacy 13 rb0 buf0 4 res0 w0 = Some (s, w1')
        /\ pqGetpwuid legacy 13 rb0 buf0 4 res0 w0_again = Some (s, w2')
        /\ mem w1' !! res0 = mem w2' !! res0)
  /\ (exists s w1' w2',
        pqGethostbyname legacy "nohost" rb0 buf0 4 res0 herrno0 w0
          = Some (s, w1')
        /\ pqGethostbyname legacy "nohost" rb0 buf0 4 res0 herrno0 w0_again
           = Some (s, w2')
        /\ mem w1' !! res0 = mem w2' !! res0
        /\ (use_gethostbyname_r legacy = true
            \/ (gethostbyname "nohost" (plat w0)).1 <> NULL ->
            mem w1' !! herrno0 = mem w2' !! herrno0)
        /\ (use_gethostbyname_r legacy = false ->
            (gethostbyname "nohost" (plat w0)).1 = NULL ->
            mem w1' !! herrno0 = mem w0 !! herrno0
            /\ mem w2' !! herrno0 = mem w0_again !! herrno0)).
Proof.
  split; [vm_compute; reflexivity|].
  destruct (wrappers_deterministic (L := libc) legacy 13 "nohost"
              rb0 buf0 4 res0 herrno0 w0 w0_again) as [Hpw Hhost].
  split.
  - apply Hpw.
    + allocated.
    + allocated.
    + vm_compute. split; reflexivity.
  - apply Hhost.
    + allocated.
    + allocated.
    + allocated.
    + allocated.
    + vm_compute. discriminate.
    + vm_compute. discriminate.
    + vm_compute. split; reflexivity.
Defined.

Lemma result_slot_always_assigned_witness :
  (exists s w',
     pqGetpwuid reentrant 5 rb0 buf0 4 res0 w0 = Some (s, w')
     /\ is_Some (mem w' !! res0)
     /\ (use_getpwuid_r reentrant = false ->
         mem w' !! res0 = Some (getpwuid 5 (clear_errno (plat w0))).1)
     /\ (forall u, exists su wu',
           pqGetpwuid reentrant 5 rb0 buf0 4 res0 (with_leftover w0 res0 u)
             = Some (su, wu')
           /\ mem wu' !! res0 = mem w' !! res0))
  /\ (exists s w',
        pqGethostbyname reentrant "nohost" rb0 buf0 4 res0 herrno0 w0
          = Some (s, w')
        /\ mem w' !! res0 =
             Some (if use_gethostbyname_r reentrant
                   then (gethostbyname_r "nohost" rb0 buf0 4 herrno0
                           (plat w0) (mem w0)).1.1
                   else (gethostbyname "nohost" (plat w0)).1)
        /\ (forall u, exists su wu',
              pqGethostbyname reentrant "nohost" rb0 buf0 4 res0 herrno0
                (with_leftover w0 res0 u) = Some (su, wu')
              /\ mem wu' !! res0 = mem w' !! res0)
        /\ (use_gethostbyname_r reentrant = false ->
            (gethostbyname "nohost" (plat w0)).1 = NULL ->
            mem w' !! herrno0 = mem w0 !! herrno0)).
Proof.
  destruct (result_slot_always_assigned (L := libc) reentrant 5 "nohost"
              rb0 buf0 4 res0 herrno0 w0) as [Hpw Hhost].
  split.
  - apply Hpw.
    + allocated.
    + intros _ u. vm_compute. split; [eexists; reflexivity | reflexivity].
  - apply Hhost.
    + allocated.
    + allocated.
    + vm_compute. discriminate.
    + intros _ u. vm_compute. split; [eexists; reflexivity | reflexivity].
Defined.

End Runs.

End Thread.
